(** * Booking lifecycle of the travel-app listings views

    A shallow embedding of [alx_travel_app/listings/views.py]: the
    [confirm] and [cancel] detail actions of [BookingViewSet] and the
    [properties] detail action of [UserViewSet], run on a request against
    an explicit database state, followed by the properties of the booking
    state machine; then the relationship lookups of [UserViewSet] and
    [PropertyViewSet], and what sequences of requests keep and change. *)

From Stdlib Require Import String List ZArith Bool Lia.
Import ListNotations.
Open Scope string_scope.

Set Warnings "-register-all".

(** ** Response payloads and HTTP status codes *)

(** What [Response(...)] carries: the Python value handed to the renderer. *)
Inductive json : Type :=
| JString (s : string)
| JList (items : list json)
| JDict (entries : list (string * json)).

(** [rest_framework.status] *)
Definition HTTP_200_OK : Z := 200.
Definition HTTP_400_BAD_REQUEST : Z := 400.
Definition HTTP_404_NOT_FOUND : Z := 404.

Definition is_success (code : Z) : bool := ((200 <=? code) && (code <=? 299))%Z.

Record Response : Type := mkResponse { data : json; status_code : Z }.

(** [Response(data)]: the status defaults to 200;
    [Response(data, status=...)] is [mkResponse]. *)
Definition Response_ (d : json) : Response := mkResponse d HTTP_200_OK.

(** ** Model instances *)

(** Modelled from the spec: [models.py] is not among the sources; a booking
    has an identifier, a property reference, a user reference, a start and
    an end date, a status and a creation timestamp.  The status is the
    string the views compare and assign. *)
Record Booking : Type := mkBooking {
  booking_id : string;
  property_obj : string;
  user : string;
  start_date : string;
  end_date : string;
  status : string;
  created_at : string
}.

(** [booking.status = s] *)
Definition set_status (s : string) (b : Booking) : Booking :=
  {| booking_id := booking_id b;
     property_obj := property_obj b;
     user := user b;
     start_date := start_date b;
     end_date := end_date b;
     status := s;
     created_at := created_at b |}.

(** Modelled from the spec: the closed set of values of the status field
    ([models.py] is not among the sources). *)
Definition STATUS_CHOICES : list string := ["pending"; "confirmed"; "canceled"].

Definition valid_status (s : string) : bool := existsb (String.eqb s) STATUS_CHOICES.

(** Modelled from the spec: [models.py] is not among the sources; of a user
    the views read the primary key and [role]. *)
Record User : Type := mkUser {
  user_id : string;
  email : string;
  role : string
}.

(** Modelled from the spec: [models.py] is not among the sources; a property
    references its host, whose reverse relation is [user.properties]. *)
Record Property : Type := mkProperty {
  property_id : string;
  host : string;
  name : string;
  location : string
}.

(** ** The database *)

(** The three tables the embedded views touch, each a list of rows, and a
    log of the instances handed to [save()], oldest first. *)
Record Database : Type := mkDatabase {
  bookings : list Booking;
  users : list User;
  properties_tbl : list Property;
  save_log : list Booking
}.

Definition has_booking_id (pk : string) (b : Booking) : bool := booking_id b =? pk.
Definition has_user_id (pk : string) (u : User) : bool := user_id u =? pk.

(** [Booking.objects.all().get(pk=pk)] *)
Definition lookup_booking (pk : string) (db : Database) : option Booking :=
  find (has_booking_id pk) (bookings db).

(** [User.objects.all().get(pk=pk)] *)
Definition lookup_user (pk : string) (db : Database) : option User :=
  find (has_user_id pk) (users db).

(** The row update of [save()]: every row with the instance's primary key
    is replaced by the instance. *)
Definition update_rows (b : Booking) (rows : list Booking) : list Booking :=
  map (fun r => if has_booking_id (booking_id b) r then b else r) rows.

(** [save()] on a model instance: update the row with its primary key, and
    insert a row when there is none. *)
Definition write_row (b : Booking) (rows : list Booking) : list Booking :=
  if existsb (has_booking_id (booking_id b)) rows
  then update_rows b rows
  else rows ++ [b].

(** ** Views as state transformers that may raise *)

(** [Http404] is what [get_object] raises for an object it does not find,
    [ValidationError] what a filter backend raises for a query string it
    refuses. *)
Inductive exn : Type :=
| Http404
| ValidationError.

Inductive outcome (A : Type) : Type :=
| Returned (a : A)
| Raised (e : exn).
Arguments Returned {A} a.
Arguments Raised {A} e.

Definition View (A : Type) : Type := Database -> outcome A * Database.

Definition ret {A : Type} (a : A) : View A := fun db => (Returned a, db).

Definition raise {A : Type} (e : exn) : View A := fun db => (Raised e, db).

Definition bind {A B : Type} (m : View A) (k : A -> View B) : View B :=
  fun db =>
    match m db with
    | (Returned a, db') => k a db'
    | (Raised e, db') => (Raised e, db')
    end.

Notation "x <- m ;; k" := (bind m (fun x => k))
  (at level 61, m at next level, right associativity).
Notation "m ;;; k" := (bind m (fun _ => k))
  (at level 61, right associativity).

(** [booking.save()] *)
Definition save (b : Booking) : View unit :=
  fun db =>
    (Returned tt,
     {| bookings := write_row b (bookings db);
        users := users db;
        properties_tbl := properties_tbl db;
        save_log := save_log db ++ [b] |}).

(** Whether a call ended in a response of the 2xx class. *)
Definition succeeded (o : outcome Response) : bool :=
  match o with
  | Returned r => is_success (status_code r)
  | Raised _ => false
  end.

(** The status stored for the booking [pk], when there is such a row. *)
Definition status_in_db (pk : string) (db : Database) : option string :=
  option_map status (lookup_booking pk db).

(** ** Requests and filter backends *)

(** Of a request the views read nothing themselves; [get_object] hands its
    query string to the filter backends of the viewset. *)
Record Request : Type := mkRequest { query_params : list (string * string) }.

(** [request.query_params.get(key)]: the last value given for the key. *)
Definition query_param (key : string) (request : Request) : option string :=
  option_map snd (find (fun kv => fst kv =? key) (rev (query_params request))).

(** [self.filter_queryset(queryset)], the [filter_backends] of a viewset run
    on the request: they refuse the query string and raise, or they keep the
    rows of the queryset that pass.  (The order an [OrderingFilter] gives
    the rows plays no part in a lookup by primary key.)  The framework is no
    part of the sources, so the views below take it as a parameter of this
    type. *)
Definition Backends (R : Type) : Type := Request -> Database -> outcome (R -> bool).

(** The backend [DjangoFilterBackend] for a viewset that declares
    [filterset_fields], on query strings it accepts: a row passes when each
    declared field to which the query string gives a non-empty value has
    that value. *)
Definition DjangoFilterBackend {R : Type} (filterset_fields : list string)
  (getattr : string -> R -> string) : Backends R :=
  fun request _ =>
    Returned (fun row =>
      forallb (fun f =>
                 match query_param f request with
                 | Some v => (v =? "") || (getattr f row =? v)
                 | None => true
                 end)
              filterset_fields).

(** [getattr(booking, f)] for the columns of a booking. *)
Definition booking_field (f : string) (b : Booking) : string :=
  if f =? "booking_id" then booking_id b
  else if f =? "property_obj" then property_obj b
  else if f =? "user" then user b
  else if f =? "start_date" then start_date b
  else if f =? "end_date" then end_date b
  else if f =? "status" then status b
  else if f =? "created_at" then created_at b
  else "".

(** [getattr(user, f)] for the columns of a user. *)
Definition user_field (f : string) (u : User) : string :=
  if f =? "user_id" then user_id u
  else if f =? "email" then email u
  else if f =? "role" then role u
  else "".

(** [getattr(property, f)] for the columns of a property. *)
Definition property_field (f : string) (p : Property) : string :=
  if f =? "property_id" then property_id p
  else if f =? "host" then host p
  else if f =? "name" then name p
  else if f =? "location" then location p
  else "".

(** ** BookingViewSet *)

Module BookingViewSet.

Definition filterset_fields : list string := ["property_obj"; "user"; "status"].

(** What [filter_backends = [DjangoFilterBackend, OrderingFilter]] keep of
    the bookings. *)
Definition django_filter : Backends Booking :=
  DjangoFilterBackend filterset_fields booking_field.

Section Views.

Variable filter_queryset : Backends Booking.
Variable BookingListSerializer : Booking -> json.
Variable BookingDetailSerializer : Booking -> json.

Definition get_serializer_class (action : string) : Booking -> json :=
  if action =? "list" then BookingListSerializer else BookingDetailSerializer.

(** [self.get_object()]: the object with the [pk] of the URL in the filtered
    queryset, [Http404] when there is none.  A primary key names one row, so
    the row is looked up by [pk] and then put to the filters; with unique
    keys this is the lookup in the filtered rows (lemma
    [get_object_in_filtered_queryset]).  Authentication and permission
    checks, of which the viewset configures none, are left out. *)
Definition get_object (request : Request) (pk : string) : View Booking :=
  fun db =>
    match filter_queryset request db with
    | Raised e => (Raised e, db)
    | Returned keeps =>
        match lookup_booking pk db with
        | Some b => if keeps b then (Returned b, db) else (Raised Http404, db)
        | None => (Raised Http404, db)
        end
    end.

Definition confirm (request : Request) (pk : string) : View Response :=
  booking <- get_object request pk ;;
  if negb (status booking =? "pending") then
    ret (mkResponse
           (JDict [("error", JString "Only pending bookings can be confirmed.")])
           HTTP_400_BAD_REQUEST)
  else
    let booking := set_status "confirmed" booking in
    save booking ;;;
    ret (Response_ (BookingDetailSerializer booking)).

Definition cancel (request : Request) (pk : string) : View Response :=
  booking <- get_object request pk ;;
  if status booking =? "canceled" then
    ret (mkResponse
           (JDict [("error", JString "Booking is already canceled.")])
           HTTP_400_BAD_REQUEST)
  else
    let booking := set_status "canceled" booking in
    save booking ;;;
    ret (Response_ (BookingDetailSerializer booking)).

End Views.
End BookingViewSet.

(** ** UserViewSet *)

Module UserViewSet.

Definition filterset_fields : list string := ["role"].
Definition search_fields : list string := ["first_name"; "last_name"; "email"].

(** What [DjangoFilterBackend] keeps of the users; the [SearchFilter] next
    to it keeps every row of a query string without a search term. *)
Definition django_filter : Backends User :=
  DjangoFilterBackend filterset_fields user_field.

Section Views.

Variable filter_queryset : Backends User.
Variable PropertyListSerializer : Property -> json.
Variable BookingListSerializer : Booking -> json.

Definition get_object (request : Request) (pk : string) : View User :=
  fun db =>
    match filter_queryset request db with
    | Raised e => (Raised e, db)
    | Returned keeps =>
        match lookup_user pk db with
        | Some u => if keeps u then (Returned u, db) else (Raised Http404, db)
        | None => (Raised Http404, db)
        end
    end.

(** Modelled from the spec: the reverse relation [user.properties.all()],
    declared in [models.py], is the collection of properties whose host is
    the user. *)
Definition properties_all (u : User) (db : Database) : list Property :=
  filter (fun p => host p =? user_id u) (properties_tbl db).

(** Modelled from the spec: the reverse relation [user.bookings.all()],
    declared in [models.py], is the collection of bookings made by the
    user. *)
Definition bookings_all (u : User) (db : Database) : list Booking :=
  filter (fun b => user b =? user_id u) (bookings db).

Definition properties (request : Request) (pk : string) : View Response :=
  user <- get_object request pk ;;
  if negb (existsb (String.eqb (role user)) ["host"; "admin"]) then
    ret (mkResponse
           (JDict [("error", JString "User is not a host or admin.")])
           HTTP_400_BAD_REQUEST)
  else
    fun db =>
      let properties := properties_all user db in
      ret (Response_ (JList (map PropertyListSerializer properties))) db.

Definition bookings (request : Request) (pk : string) : View Response :=
  user <- get_object request pk ;;
  fun db =>
    let bookings := bookings_all user db in
    ret (Response_ (JList (map BookingListSerializer bookings))) db.

End Views.
End UserViewSet.

(** ** PropertyViewSet *)

Definition has_property_id (pk : string) (p : Property) : bool := property_id p =? pk.

(** [Property.objects.all().get(pk=pk)] *)
Definition lookup_property (pk : string) (db : Database) : option Property :=
  find (has_property_id pk) (properties_tbl db).

(** Modelled from the spec: [models.py] is not among the sources; a review
    references the property it is about ([listing_id]) and its author (the
    field [user], here [reviewer]: the name is taken by the booking's
    field) and carries a rating. *)
Record Review : Type := mkReview {
  review_id : string;
  listing_id : string;
  reviewer : string;
  rating : Z;
  comment : string
}.

Module PropertyViewSet.

Definition filterset_fields : list string := ["host"; "location"].
Definition search_fields : list string := ["name"; "description"; "location"].

(** What [DjangoFilterBackend] keeps of the properties; the [SearchFilter]
    next to it keeps every row of a query string without a search term. *)
Definition django_filter : Backends Property :=
  DjangoFilterBackend filterset_fields property_field.

Section Views.

Variable filter_queryset : Backends Property.
Variable PropertyListSerializer : Property -> json.
Variable PropertyDetailSerializer : Property -> json.
Variable BookingListSerializer : Booking -> json.
Variable ReviewSerializer : Review -> json.

(** The review table.  No view of the module writes it, so it is read from
    the context instead of the threaded state. *)
Variable review_rows : list Review.

Definition get_serializer_class (action : string) : Property -> json :=
  if action =? "list" then PropertyListSerializer else PropertyDetailSerializer.

Definition get_object (request : Request) (pk : string) : View Property :=
  fun db =>
    match filter_queryset request db with
    | Raised e => (Raised e, db)
    | Returned keeps =>
        match lookup_property pk db with
        | Some p => if keeps p then (Returned p, db) else (Raised Http404, db)
        | None => (Raised Http404, db)
        end
    end.

(** Modelled from the spec: the reverse relation [property_obj.bookings.all()],
    declared in [models.py], is the collection of bookings of the property. *)
Definition bookings_all (p : Property) (db : Database) : list Booking :=
  filter (fun b => property_obj b =? property_id p) (bookings db).

(** Modelled from the spec: the reverse relation [property_obj.reviews.all()],
    declared in [models.py], is the collection of reviews of the property. *)
Definition reviews_all (p : Property) : list Review :=
  filter (fun r => listing_id r =? property_id p) review_rows.

Definition bookings (request : Request) (pk : string) : View Response :=
  property_obj <- get_object request pk ;;
  fun db =>
    let bookings := bookings_all property_obj db in
    ret (Response_ (JList (map BookingListSerializer bookings))) db.

Definition reviews (request : Request) (pk : string) : View Response :=
  property_obj <- get_object request pk ;;
  let reviews := reviews_all property_obj in
  ret (Response_ (JList (map ReviewSerializer reviews))).

End Views.
End PropertyViewSet.

(** ** Sequences of requests *)

(** The two POST detail routes of [BookingViewSet], each with the request
    and the [pk] of the URL. *)
Inductive request : Type :=
| Confirm (query : Request) (pk : string)
| Cancel (query : Request) (pk : string).

Definition target (r : request) : string :=
  match r with
  | Confirm _ pk => pk
  | Cancel _ pk => pk
  end.

(** The status a request asks for. *)
Definition asked (r : request) : string :=
  match r with
  | Confirm _ _ => "confirmed"
  | Cancel _ _ => "canceled"
  end.

(** The router: one request, dispatched to its action. *)
Definition handle (filter_queryset : Backends Booking) (detail : Booking -> json)
  (r : request) : View Response :=
  match r with
  | Confirm query pk => BookingViewSet.confirm filter_queryset detail query pk
  | Cancel query pk => BookingViewSet.cancel filter_queryset detail query pk
  end.

(** The database after a sequence of requests, served one after the other. *)
Fixpoint serve (filter_queryset : Backends Booking) (detail : Booking -> json)
  (rs : list request) (db : Database) : Database :=
  match rs with
  | [] => db
  | r :: rs' =>
      serve filter_queryset detail rs' (snd (handle filter_queryset detail r db))
  end.

(** How many times the booking [pk] was handed to [save()]. *)
Definition saves_of (pk : string) (log : list Booking) : nat :=
  length (filter (has_booking_id pk) log).

(** How many more times a booking with status [s] can be saved by the two
    actions: a pending one twice (confirmed, then canceled), a canceled one
    never, any other once (canceled). *)
Definition writes_left (s : string) : nat :=
  if s =? "pending" then 2
  else if s =? "canceled" then 0
  else 1.

Definition writes_left_in_db (pk : string) (db : Database) : nat :=
  match status_in_db pk db with
  | Some s => writes_left s
  | None => 0
  end.

(** The primary-key constraint of the booking table: no two rows share a
    key. *)
Fixpoint distinct (keys : list string) : bool :=
  match keys with
  | [] => true
  | k :: rest => negb (existsb (String.eqb k) rest) && distinct rest
  end.

Definition primary_keys_unique (db : Database) : bool :=
  distinct (map booking_id (bookings db)).

(** A booking with its status blanked: what two rows share when they differ
    in status at most. *)
Definition without_status (b : Booking) : Booking := set_status "" b.

(** ** Vocabulary of the state machine *)

(** A status [s] is terminal when neither action changes the status of a
    booking that has it. *)
Definition terminal_status (filter_queryset : Backends Booking)
  (detail : Booking -> json) (s : string) : Prop :=
  forall (query : Request) (pk : string) (db : Database) (b : Booking),
    lookup_booking pk db = Some b ->
    status b = s ->
    status_in_db pk
      (snd (BookingViewSet.confirm filter_queryset detail query pk db)) = Some s /\
    status_in_db pk
      (snd (BookingViewSet.cancel filter_queryset detail query pk db)) = Some s.

(** ** A concrete database

    Sample rows and serializers on which the views are run. *)

Module Fixture.

Definition booking_json (b : Booking) : json :=
  JDict [("booking_id", JString (booking_id b));
         ("property_obj", JString (property_obj b));
         ("user", JString (user b));
         ("start_date", JString (start_date b));
         ("end_date", JString (end_date b));
         ("status", JString (status b));
         ("created_at", JString (created_at b))].

Definition booking_brief (b : Booking) : json :=
  JDict [("booking_id", JString (booking_id b));
         ("status", JString (status b))].

Definition property_brief (p : Property) : json :=
  JDict [("property_id", JString (property_id p));
         ("name", JString (name p));
         ("location", JString (location p))].

Definition bk_pending : Booking :=
  mkBooking "b-1" "p-1" "u-3" "2025-07-01" "2025-07-05" "pending" "2025-06-01".
Definition bk_confirmed : Booking :=
  mkBooking "b-2" "p-1" "u-3" "2025-08-01" "2025-08-03" "confirmed" "2025-06-02".
Definition bk_canceled : Booking :=
  mkBooking "b-3" "p-2" "u-3" "2025-09-10" "2025-09-12" "canceled" "2025-06-03".
Definition bk_archived : Booking :=
  mkBooking "b-4" "p-2" "u-3" "2024-01-10" "2024-01-12" "archived" "2023-12-03".

Definition u_host : User := mkUser "u-1" "host@example.com" "host".
Definition u_admin : User := mkUser "u-2" "admin@example.com" "admin".
Definition u_guest : User := mkUser "u-3" "guest@example.com" "guest".

Definition p_cabin : Property := mkProperty "p-1" "u-1" "Cabin" "Bergen".
Definition p_loft : Property := mkProperty "p-2" "u-1" "Loft" "Oslo".
Definition p_villa : Property := mkProperty "p-3" "u-2" "Villa" "Faro".

Definition db0 : Database :=
  {| bookings := [bk_pending; bk_confirmed; bk_canceled; bk_archived];
     users := [u_host; u_admin; u_guest];
     properties_tbl := [p_cabin; p_loft; p_villa];
     save_log := [] |}.

Definition review_json (r : Review) : json :=
  JDict [("review_id", JString (review_id r));
         ("comment", JString (comment r))].

Definition rv_cabin : Review := mkReview "r-1" "p-1" "u-3" 5 "Quiet and warm".
Definition rv_loft : Review := mkReview "r-2" "p-2" "u-3" 3 "Noisy street".

Definition reviews0 : list Review := [rv_cabin; rv_loft].

(** Query strings. *)
Definition no_query : Request := mkRequest [].
Definition by_status (s : string) : Request := mkRequest [("status", s)].
Definition by_role (r : string) : Request := mkRequest [("role", r)].
Definition by_host (h : string) : Request := mkRequest [("host", h)].

End Fixture.

(** * Properties *)

(** ** Rows and [save()] *)

Lemma set_status_id (s : string) (b : Booking) :
  booking_id (set_status s b) = booking_id b.
Proof. reflexivity. Qed.

Lemma set_status_status (s : string) (b : Booking) :
  status (set_status s b) = s.
Proof. reflexivity. Qed.

Lemma set_status_same (b : Booking) : set_status (status b) b = b.
Proof. destruct b; reflexivity. Qed.

Lemma has_booking_id_true (pk : string) (b : Booking) :
  has_booking_id pk b = true <-> booking_id b = pk.
Proof. unfold has_booking_id. apply String.eqb_eq. Qed.

Lemma lookup_booking_id (pk : string) (db : Database) (b : Booking) :
  lookup_booking pk db = Some b -> booking_id b = pk.
Proof.
  unfold lookup_booking. intros Hf.
  apply find_some in Hf. destruct Hf as [_ Hid].
  now apply has_booking_id_true.
Qed.

Lemma find_existsb (pk : string) (rows : list Booking) (b : Booking) :
  find (has_booking_id pk) rows = Some b ->
  existsb (has_booking_id pk) rows = true.
Proof.
  intros Hf. apply find_some in Hf. destruct Hf as [Hin Hid].
  apply existsb_exists. exists b. split; assumption.
Qed.

(** After the row update, the first row with the instance's key is the
    instance. *)
Lemma find_update_rows (b b0 : Booking) (rows : list Booking) :
  find (has_booking_id (booking_id b)) rows = Some b0 ->
  find (has_booking_id (booking_id b)) (update_rows b rows) = Some b.
Proof.
  induction rows as [|r rows IH]; simpl.
  - discriminate.
  - destruct (has_booking_id (booking_id b) r) eqn:Hr.
    + intros _. unfold has_booking_id at 1. now rewrite String.eqb_refl.
    + intros Hf. rewrite Hr. now apply IH.
Qed.

Lemma find_write_row (b b0 : Booking) (rows : list Booking) :
  find (has_booking_id (booking_id b)) rows = Some b0 ->
  find (has_booking_id (booking_id b)) (write_row b rows) = Some b.
Proof.
  intros Hf. unfold write_row.
  rewrite (find_existsb _ _ _ Hf).
  now apply find_update_rows with (b0 := b0).
Qed.

Lemma lookup_after_save (b b0 : Booking) (pk : string) (db : Database) :
  lookup_booking pk db = Some b0 ->
  booking_id b = pk ->
  lookup_booking pk (snd (save b db)) = Some b.
Proof.
  intros Hl Hid. subst pk. unfold lookup_booking in *. simpl.
  now apply find_write_row with (b0 := b0).
Qed.

(** Saving an instance read under [pk], whatever status it was given since,
    makes it the row read under [pk]. *)
Lemma lookup_after_status_save (s : string) (b : Booking) (pk : string) (db : Database) :
  lookup_booking pk db = Some b ->
  lookup_booking pk (snd (save (set_status s b) db)) = Some (set_status s b).
Proof.
  intros Hl. apply lookup_after_save with (b0 := b); [exact Hl|].
  rewrite set_status_id. now apply lookup_booking_id with (db := db).
Qed.

Lemma save_log_after_save (b : Booking) (db : Database) :
  save_log (snd (save b db)) = (save_log db ++ [b])%list.
Proof. reflexivity. Qed.

(** ** [get_object] *)

Section GetObject.

Variable filter_queryset : Backends Booking.

Local Abbreviation get_object := (BookingViewSet.get_object filter_queryset).

Lemma get_object_cases (query : Request) (pk : string) (db : Database) :
  (exists b, get_object query pk db = (Returned b, db) /\
             lookup_booking pk db = Some b) \/
  (exists e, get_object query pk db = (Raised e, db)).
Proof.
  unfold BookingViewSet.get_object.
  destruct (filter_queryset query db) as [keeps|e]; [|right; now exists e].
  destruct (lookup_booking pk db) as [b|]; [|right; now exists Http404].
  destruct (keeps b); [left; now exists b|right; now exists Http404].
Qed.

Lemma get_object_lookup (query : Request) (pk : string) (db db' : Database) (b : Booking) :
  get_object query pk db = (Returned b, db') ->
  lookup_booking pk db = Some b.
Proof.
  intros Hg.
  destruct (get_object_cases query pk db) as [(b0 & Hb0 & Hl)|(e & He)];
    rewrite Hg in *; congruence.
Qed.

Lemma find_in_filtered (keeps : Booking -> bool) (pk : string) (rows : list Booking) :
  distinct (map booking_id rows) = true ->
  find (has_booking_id pk) (filter keeps rows) =
    match find (has_booking_id pk) rows with
    | Some b => if keeps b then Some b else None
    | None => None
    end.
Proof.
  induction rows as [|r rows IH]; intros Hd; [reflexivity|].
  cbn [map distinct] in Hd. apply andb_true_iff in Hd. destruct Hd as [Hfresh Hd].
  apply negb_true_iff in Hfresh. cbn [filter find].
  destruct (has_booking_id pk r) eqn:Hr.
  - destruct (keeps r); [cbn [find]; now rewrite Hr|].
    destruct (find (has_booking_id pk) (filter keeps rows)) as [x|] eqn:Hx;
      [|reflexivity].
    apply find_some in Hx. destruct Hx as [Hin Hid].
    apply filter_In in Hin. destruct Hin as [Hin _].
    apply has_booking_id_true in Hr, Hid.
    assert (Hex : existsb (String.eqb (booking_id r)) (map booking_id rows) = true).
    { apply existsb_exists. exists (booking_id x). split.
      - now apply in_map.
      - apply String.eqb_eq. congruence. }
    congruence.
  - destruct (keeps r); [cbn [find]; rewrite Hr|]; now apply IH.
Qed.

(** With unique primary keys, [get_object] is the lookup of [pk] among the
    rows the filter backends keep. *)
Lemma get_object_in_filtered_queryset
  (query : Request) (pk : string) (db : Database) (keeps : Booking -> bool) :
  primary_keys_unique db = true ->
  filter_queryset query db = Returned keeps ->
  get_object query pk db =
    match find (has_booking_id pk) (filter keeps (bookings db)) with
    | Some b => (Returned b, db)
    | None => (Raised Http404, db)
    end.
Proof.
  intros Hu Hk. unfold BookingViewSet.get_object. rewrite Hk.
  rewrite (find_in_filtered keeps pk (bookings db) Hu).
  unfold lookup_booking. destruct (find (has_booking_id pk) (bookings db)) as [b|];
    [|reflexivity].
  destruct (keeps b); reflexivity.
Qed.

End GetObject.

(** ** The booking state machine *)

Section BookingLifecycle.

Variable filter_queryset : Backends Booking.
Variable detail : Booking -> json.

Local Abbreviation get_object := (BookingViewSet.get_object filter_queryset).
Local Abbreviation confirm := (BookingViewSet.confirm filter_queryset detail).
Local Abbreviation cancel := (BookingViewSet.cancel filter_queryset detail).

(** *** What a call computes, by the branch it takes *)

Lemma confirm_unresolved (query : Request) (pk : string) (db : Database) (e : exn) :
  get_object query pk db = (Raised e, db) ->
  confirm query pk db = (Raised e, db).
Proof.
  intros Hg. unfold BookingViewSet.confirm, bind. now rewrite Hg.
Qed.

Lemma confirm_rejected (query : Request) (pk : string) (db : Database) (b : Booking) :
  get_object query pk db = (Returned b, db) ->
  status b <> "pending" ->
  confirm query pk db =
    (Returned (mkResponse
       (JDict [("error", JString "Only pending bookings can be confirmed.")])
       400), db).
Proof.
  intros Hg Hs. unfold BookingViewSet.confirm, bind.
  rewrite Hg. apply String.eqb_neq in Hs. now rewrite Hs.
Qed.

Lemma confirm_accepted (query : Request) (pk : string) (db : Database) (b : Booking) :
  get_object query pk db = (Returned b, db) ->
  status b = "pending" ->
  confirm query pk db =
    (Returned (mkResponse (detail (set_status "confirmed" b)) 200),
     snd (save (set_status "confirmed" b) db)).
Proof.
  intros Hg Hs. unfold BookingViewSet.confirm, bind.
  rewrite Hg, Hs. reflexivity.
Qed.

Lemma cancel_unresolved (query : Request) (pk : string) (db : Database) (e : exn) :
  get_object query pk db = (Raised e, db) ->
  cancel query pk db = (Raised e, db).
Proof.
  intros Hg. unfold BookingViewSet.cancel, bind. now rewrite Hg.
Qed.

Lemma cancel_rejected (query : Request) (pk : string) (db : Database) (b : Booking) :
  get_object query pk db = (Returned b, db) ->
  status b = "canceled" ->
  cancel query pk db =
    (Returned (mkResponse
       (JDict [("error", JString "Booking is already canceled.")])
       400), db).
Proof.
  intros Hg Hs. unfold BookingViewSet.cancel, bind.
  rewrite Hg, Hs. reflexivity.
Qed.

Lemma cancel_accepted (query : Request) (pk : string) (db : Database) (b : Booking) :
  get_object query pk db = (Returned b, db) ->
  status b <> "canceled" ->
  cancel query pk db =
    (Returned (mkResponse (detail (set_status "canceled" b)) 200),
     snd (save (set_status "canceled" b) db)).
Proof.
  intros Hg Hs. unfold BookingViewSet.cancel, bind.
  rewrite Hg. apply String.eqb_neq in Hs. now rewrite Hs.
Qed.

(** *** Successful transitions *)

(** C1, as amended. For every booking whose status is "pending" and which
    [get_object] returns for the request (the row passes the filters the
    query string sets), [confirm] succeeds: the response is 200 and carries
    the serialized booking with status "confirmed", and a later read of the
    same key finds that booking in the database. *)
Theorem confirm_pending_succeeds
  (query : Request) (pk : string) (db : Database) (b : Booking) :
  get_object query pk db = (Returned b, db) ->
  status b = "pending" ->
  let b' := set_status "confirmed" b in
  fst (confirm query pk db) = Returned (mkResponse (detail b') 200) /\
  status b' = "confirmed" /\
  lookup_booking pk (snd (confirm query pk db)) = Some b'.
Proof.
  intros Hg Hs b'. rewrite (confirm_accepted query pk db b Hg Hs).
  cbn [fst snd]. repeat split.
  subst b'. apply lookup_after_status_save.
  exact (get_object_lookup filter_queryset query pk db db b Hg).
Qed.

(** C2, as amended. For every booking whose status is "pending" or
    "confirmed" and which [get_object] returns for the request, [cancel]
    succeeds: the response is 200 and carries the serialized booking with
    status "canceled", and a later read of the same key finds that booking
    in the database, whichever of the two states held before. *)
Theorem cancel_active_succeeds
  (query : Request) (pk : string) (db : Database) (b : Booking) :
  get_object query pk db = (Returned b, db) ->
  status b = "pending" \/ status b = "confirmed" ->
  let b' := set_status "canceled" b in
  fst (cancel query pk db) = Returned (mkResponse (detail b') 200) /\
  status b' = "canceled" /\
  lookup_booking pk (snd (cancel query pk db)) = Some b'.
Proof.
  intros Hg Hs b'.
  assert (Hne : status b <> "canceled")
    by (destruct Hs as [Hs|Hs]; rewrite Hs; discriminate).
  rewrite (cancel_accepted query pk db b Hg Hne).
  cbn [fst snd]. repeat split.
  subst b'. apply lookup_after_status_save.
  exact (get_object_lookup filter_queryset query pk db db b Hg).
Qed.

(** *** Rejected transitions *)



(** *** The status after a call *)

Lemma confirm_status_after (query : Request) (pk : string) (db : Database) (b : Booking) :
  lookup_booking pk db = Some b ->
  status_in_db pk (snd (confirm query pk db)) = Some (status b) \/
  (status b = "pending" /\
   get_object query pk db = (Returned b, db) /\
   status_in_db pk (snd (confirm query pk db)) = Some "confirmed").
Proof.
  intros Hl.
  assert (Hsame : status_in_db pk db = Some (status b))
    by (unfold status_in_db; now rewrite Hl).
  destruct (get_object_cases filter_queryset query pk db)
    as [(b0 & Hg & Hl0)|(e & Hg)].
  - assert (b0 = b) by congruence. subst b0.
    destruct (String.eqb_spec (status b) "pending") as [Hs|Hs].
    + right. split; [exact Hs|]. split; [exact Hg|].
      rewrite (confirm_accepted query pk db b Hg Hs). cbn [snd].
      unfold status_in_db. now rewrite (lookup_after_status_save _ b pk db Hl).
    + left. now rewrite (confirm_rejected query pk db b Hg Hs).
  - left. now rewrite (confirm_unresolved query pk db e Hg).
Qed.

Lemma cancel_status_after (query : Request) (pk : string) (db : Database) (b : Booking) :
  lookup_booking pk db = Some b ->
  status_in_db pk (snd (cancel query pk db)) =
    Some (match fst (get_object query pk db) with
          | Returned _ => "canceled"
          | Raised _ => status b
          end).
Proof.
  intros Hl.
  assert (Hsame : status_in_db pk db = Some (status b))
    by (unfold status_in_db; now rewrite Hl).
  destruct (get_object_cases filter_queryset query pk db)
    as [(b0 & Hg & Hl0)|(e & Hg)]; rewrite Hg; cbn [fst].
  - assert (b0 = b) by congruence. subst b0.
    destruct (String.eqb_spec (status b) "canceled") as [Hs|Hs].
    + rewrite (cancel_rejected query pk db b Hg Hs). cbn [snd]. congruence.
    + rewrite (cancel_accepted query pk db b Hg Hs). cbn [snd].
      unfold status_in_db. now rewrite (lookup_after_status_save _ b pk db Hl).
  - now rewrite (cancel_unresolved query pk db e Hg).
Qed.

(** C5, as amended. For every booking whose status is "confirmed" or
    "canceled" and for every request: [confirm] leaves the status as it is;
    a canceled booking is left alone by both actions, the database with it;
    and after [cancel] a confirmed booking is canceled when [get_object]
    returns it for the request, and still confirmed when [get_object]
    raises.  So "canceled" is terminal and "confirmed" has the one exit
    "canceled". *)
Theorem settled_status_transitions
  (query : Request) (pk : string) (db : Database) (b : Booking) :
  lookup_booking pk db = Some b ->
  status b = "confirmed" \/ status b = "canceled" ->
  status_in_db pk (snd (confirm query pk db)) = Some (status b) /\
  status_in_db pk (snd (cancel query pk db)) =
    Some (match fst (get_object query pk db) with
          | Returned _ => "canceled"
          | Raised _ => status b
          end) /\
  (status b = "canceled" ->
   snd (confirm query pk db) = db /\ snd (cancel query pk db) = db).
Proof.
  intros Hl Hs. split; [|split].
  - destruct (confirm_status_after query pk db b Hl) as [H|(Hp & _)];
      [exact H|].
    destruct Hs as [Hs|Hs]; rewrite Hs in Hp; discriminate Hp.
  - exact (cancel_status_after query pk db b Hl).
  - intros Hc.
    destruct (get_object_cases filter_queryset query pk db)
      as [(b0 & Hg & Hl0)|(e & Hg)].
    + assert (b0 = b) by congruence. subst b0. split.
      * rewrite (confirm_rejected query pk db b Hg); [reflexivity|].
        rewrite Hc. discriminate.
      * now rewrite (cancel_rejected query pk db b Hg Hc).
    + split.
      * now rewrite (confirm_unresolved query pk db e Hg).
      * now rewrite (cancel_unresolved query pk db e Hg).
Qed.

(** C6. For every booking whose status is one of "pending", "confirmed" and
    "canceled", the booking is still in the database after [confirm] and
    after [cancel], accepted or rejected, and its status is again one of the
    three. *)
Theorem status_stays_in_choices
  (query : Request) (pk : string) (db : Database) (b : Booking) :
  lookup_booking pk db = Some b ->
  valid_status (status b) = true ->
  (exists s, status_in_db pk (snd (confirm query pk db)) = Some s /\
             valid_status s = true) /\
  (exists s, status_in_db pk (snd (cancel query pk db)) = Some s /\
             valid_status s = true).
Proof.
  intros Hl Hv. split.
  - destruct (confirm_status_after query pk db b Hl) as [H|(_ & _ & H)].
    + exists (status b). now split.
    + exists "confirmed". now split.
  - eexists. split; [exact (cancel_status_after query pk db b Hl)|].
    destruct (fst (get_object query pk db)); [reflexivity|exact Hv].
Qed.

(** *** Persistence writes *)

(** C7. For [confirm] and for [cancel], from any database and for any
    request and key: a call that ends in a 2xx response has appended exactly
    one entry to the log of [save()] calls; any other call (a 400 response,
    or an exception of [get_object]) leaves the whole database, rows and
    log, as it was. *)
Theorem one_write_on_success_none_on_failure
  (query : Request) (pk : string) (db : Database) :
  (if succeeded (fst (confirm query pk db))
   then exists b, save_log (snd (confirm query pk db)) = (save_log db ++ [b])%list
   else snd (confirm query pk db) = db) /\
  (if succeeded (fst (cancel query pk db))
   then exists b, save_log (snd (cancel query pk db)) = (save_log db ++ [b])%list
   else snd (cancel query pk db) = db).
Proof.
  split.
  - destruct (get_object_cases filter_queryset query pk db)
      as [(b & Hg & _)|(e & Hg)].
    + destruct (String.eqb_spec (status b) "pending") as [Hs|Hs].
      * rewrite (confirm_accepted query pk db b Hg Hs). cbn [fst snd succeeded].
        cbn. eexists. reflexivity.
      * rewrite (confirm_rejected query pk db b Hg Hs). reflexivity.
    + rewrite (confirm_unresolved query pk db e Hg). reflexivity.
  - destruct (get_object_cases filter_queryset query pk db)
      as [(b & Hg & _)|(e & Hg)].
    + destruct (String.eqb_spec (status b) "canceled") as [Hs|Hs].
      * rewrite (cancel_rejected query pk db b Hg Hs). reflexivity.
      * rewrite (cancel_accepted query pk db b Hg Hs). cbn [fst snd succeeded].
        cbn. eexists. reflexivity.
    + rewrite (cancel_unresolved query pk db e Hg). reflexivity.
Qed.


(** *** The gate of [cancel] *)

(** C10, as amended. For every booking whose status is any string other
    than "canceled", inside or outside the three choices, and which
    [get_object] returns for the request, [cancel] succeeds with a 200
    response carrying the booking with status "canceled", and that status is
    what the database holds afterwards. *)
Theorem cancel_any_status_but_canceled
  (query : Request) (pk : string) (db : Database) (b : Booking) :
  get_object query pk db = (Returned b, db) ->
  status b <> "canceled" ->
  fst (cancel query pk db) =
    Returned (mkResponse (detail (set_status "canceled" b)) 200) /\
  lookup_booking pk (snd (cancel query pk db)) = Some (set_status "canceled" b) /\
  status_in_db pk (snd (cancel query pk db)) = Some "canceled".
Proof.
  intros Hg Hs.
  pose proof (get_object_lookup filter_queryset query pk db db b Hg) as Hl.
  rewrite (cancel_accepted query pk db b Hg Hs). cbn [fst snd].
  split; [reflexivity|]. split.
  - now apply lookup_after_status_save.
  - unfold status_in_db. now rewrite (lookup_after_status_save _ b pk db Hl).
Qed.

End BookingLifecycle.

(** ** Properties of a host *)

Section HostProperties.

Variable filter_queryset : Backends User.
Variable listing : Property -> json.

Local Abbreviation get_object := (UserViewSet.get_object filter_queryset).
Local Abbreviation properties := (UserViewSet.properties filter_queryset listing).





End HostProperties.

(** ** The theorems on the sample database *)

Section Samples.

Import Fixture.

Local Abbreviation get_object := (BookingViewSet.get_object BookingViewSet.django_filter).
Local Abbreviation confirm :=
  (BookingViewSet.confirm BookingViewSet.django_filter booking_json).
Local Abbreviation cancel :=
  (BookingViewSet.cancel BookingViewSet.django_filter booking_json).
Local Abbreviation get_user := (UserViewSet.get_object UserViewSet.django_filter).
Local Abbreviation properties :=
  (UserViewSet.properties UserViewSet.django_filter property_brief).

(** C1, as stated, fails: the booking "b-1" is pending, and [confirm] on a
    request whose query string asks for [status=confirmed] raises [Http404]
    and saves nothing. *)
Lemma pending_booking_filtered_out :
  lookup_booking "b-1" db0 = Some bk_pending /\
  status bk_pending = "pending" /\
  confirm (by_status "confirmed") "b-1" db0 = (Raised Http404, db0) /\
  succeeded (fst (confirm (by_status "confirmed") "b-1" db0)) = false.
Proof. repeat split. Qed.

Lemma confirm_pending_succeeds_witness :
  get_object (by_status "pending") "b-1" db0 = (Returned bk_pending, db0) /\
  status bk_pending = "pending" /\
  fst (confirm (by_status "pending") "b-1" db0) =
    Returned (mkResponse (booking_json (set_status "confirmed" bk_pending)) 200) /\
  status (set_status "confirmed" bk_pending) = "confirmed" /\
  lookup_booking "b-1" (snd (confirm (by_status "pending") "b-1" db0)) =
    Some (set_status "confirmed" bk_pending).
Proof.
  split; [reflexivity|]. split; [reflexivity|].
  apply (confirm_pending_succeeds BookingViewSet.django_filter booking_json
           (by_status "pending") "b-1" db0 bk_pending); reflexivity.
Defined.

(** C2, as stated, fails: the booking "b-2" is confirmed, and [cancel] on a
    request whose query string asks for [status=canceled] raises [Http404]
    and saves nothing. *)
Lemma active_booking_filtered_out :
  lookup_booking "b-2" db0 = Some bk_confirmed /\
  (status bk_confirmed = "pending" \/ status bk_confirmed = "confirmed") /\
  cancel (by_status "canceled") "b-2" db0 = (Raised Http404, db0) /\
  succeeded (fst (cancel (by_status "canceled") "b-2" db0)) = false.
Proof. split; [reflexivity|]. split; [right; reflexivity|]. split; reflexivity. Qed.

Lemma cancel_active_succeeds_witness :
  get_object no_query "b-2" db0 = (Returned bk_confirmed, db0) /\
  (status bk_confirmed = "pending" \/ status bk_confirmed = "confirmed") /\
  fst (cancel no_query "b-2" db0) =
    Returned (mkResponse (booking_json (set_status "canceled" bk_confirmed)) 200) /\
  status (set_status "canceled" bk_confirmed) = "canceled" /\
  lookup_booking "b-2" (snd (cancel no_query "b-2" db0)) =
    Some (set_status "canceled" bk_confirmed).
Proof.
  split; [reflexivity|]. split; [right; reflexivity|].
  apply (cancel_active_succeeds BookingViewSet.django_filter booking_json
           no_query "b-2" db0 bk_confirmed);
    [reflexivity|right; reflexivity].
Defined.





(** C5, as stated, fails: the booking "b-2" is confirmed, [cancel] turns it
    into a canceled one, so "confirmed" is not terminal. *)
Lemma confirmed_is_not_terminal :
  lookup_booking "b-2" db0 = Some bk_confirmed /\
  status bk_confirmed = "confirmed" /\
  status_in_db "b-2" (snd (cancel no_query "b-2" db0)) = Some "canceled" /\
  ~ terminal_status BookingViewSet.django_filter booking_json "confirmed".
Proof.
  split; [reflexivity|]. split; [reflexivity|]. split; [reflexivity|].
  intros Hterm.
  destruct (Hterm no_query "b-2" db0 bk_confirmed eq_refl eq_refl) as [_ Hcancel].
  vm_compute in Hcancel. discriminate Hcancel.
Qed.

Lemma settled_status_transitions_witness :
  lookup_booking "b-2" db0 = Some bk_confirmed /\
  (status bk_confirmed = "confirmed" \/ status bk_confirmed = "canceled") /\
  status_in_db "b-2" (snd (confirm no_query "b-2" db0)) =
    Some (status bk_confirmed) /\
  status_in_db "b-2" (snd (cancel no_query "b-2" db0)) =
    Some (match fst (get_object no_query "b-2" db0) with
          | Returned _ => "canceled"
          | Raised _ => status bk_confirmed
          end) /\
  (status bk_confirmed = "canceled" ->
   snd (confirm no_query "b-2" db0) = db0 /\ snd (cancel no_query "b-2" db0) = db0).
Proof.
  split; [reflexivity|]. split; [left; reflexivity|].
  apply (settled_status_transitions BookingViewSet.django_filter booking_json
           no_query "b-2" db0 bk_confirmed);
    [reflexivity|left; reflexivity].
Defined.

Lemma status_stays_in_choices_witness :
  lookup_booking "b-1" db0 = Some bk_pending /\
  valid_status (status bk_pending) = true /\
  (exists s, status_in_db "b-1" (snd (confirm no_query "b-1" db0)) = Some s /\
             valid_status s = true) /\
  (exists s, status_in_db "b-1" (snd (cancel no_query "b-1" db0)) = Some s /\
             valid_status s = true).
Proof.
  split; [reflexivity|]. split; [reflexivity|].
  apply (status_stays_in_choices BookingViewSet.django_filter booking_json
           no_query "b-1" db0 bk_pending); reflexivity.
Defined.



(** C10, as stated, fails: the booking "b-4" has the status "archived", and
    [cancel] on a request whose query string asks for [status=pending]
    raises [Http404] and saves nothing. *)
Lemma non_canceled_booking_filtered_out :
  lookup_booking "b-4" db0 = Some bk_archived /\
  status bk_archived <> "canceled" /\
  cancel (by_status "pending") "b-4" db0 = (Raised Http404, db0) /\
  succeeded (fst (cancel (by_status "pending") "b-4" db0)) = false.
Proof.
  split; [reflexivity|]. split; [apply String.eqb_neq; reflexivity|].
  split; reflexivity.
Qed.

Lemma cancel_any_status_but_canceled_witness :
  get_object no_query "b-4" db0 = (Returned bk_archived, db0) /\
  status bk_archived <> "canceled" /\
  valid_status (status bk_archived) = false /\
  fst (cancel no_query "b-4" db0) =
    Returned (mkResponse (booking_json (set_status "canceled" bk_archived)) 200) /\
  lookup_booking "b-4" (snd (cancel no_query "b-4" db0)) =
    Some (set_status "canceled" bk_archived) /\
  status_in_db "b-4" (snd (cancel no_query "b-4" db0)) = Some "canceled".
Proof.
  split; [reflexivity|].
  split; [apply String.eqb_neq; reflexivity|].
  split; [reflexivity|].
  apply (cancel_any_status_but_canceled BookingViewSet.django_filter booking_json
           no_query "b-4" db0 bk_archived);
    [reflexivity|apply String.eqb_neq; reflexivity].
Defined.



(** The two branches of C7 and the outcomes of C9, computed. *)

Example confirm_pending_writes_once :
  succeeded (fst (confirm no_query "b-1" db0)) = true /\
  save_log (snd (confirm no_query "b-1" db0)) = [set_status "confirmed" bk_pending] /\
  bookings (snd (confirm no_query "b-1" db0)) =
    [set_status "confirmed" bk_pending; bk_confirmed; bk_canceled; bk_archived].
Proof. repeat split. Qed.

Example confirm_canceled_writes_nothing :
  succeeded (fst (confirm no_query "b-3" db0)) = false /\
  snd (confirm no_query "b-3" db0) = db0.
Proof. repeat split. Qed.

Example cancel_unknown_booking :
  cancel no_query "b-9" db0 = (Raised Http404, db0).
Proof. reflexivity. Qed.

Example properties_of_host :
  fst (properties no_query "u-1" db0) =
    Returned (mkResponse
      (JList [property_brief p_cabin; property_brief p_loft]) 200).
Proof. reflexivity. Qed.

Example properties_of_guest :
  fst (properties no_query "u-3" db0) =
    Returned (mkResponse
      (JDict [("error", JString "User is not a host or admin.")]) 400).
Proof. reflexivity. Qed.

End Samples.

(** ** What a transition leaves alone *)

Lemma has_booking_id_false (pk : string) (b : Booking) :
  has_booking_id pk b = false <-> booking_id b <> pk.
Proof. unfold has_booking_id. apply String.eqb_neq. Qed.

Lemma find_update_rows_other (b : Booking) (pk' : string) (rows : list Booking) :
  booking_id b <> pk' ->
  find (has_booking_id pk') (update_rows b rows) = find (has_booking_id pk') rows.
Proof.
  intros Hne. induction rows as [|r rows IH]; [reflexivity|].
  cbn [update_rows map find]. fold (update_rows b rows).
  destruct (has_booking_id (booking_id b) r) eqn:Hr.
  - apply has_booking_id_true in Hr.
    assert (Hb : has_booking_id pk' b = false) by now apply has_booking_id_false.
    assert (Hr' : has_booking_id pk' r = false)
      by (apply has_booking_id_false; congruence).
    now rewrite Hb, Hr'.
  - destruct (has_booking_id pk' r); [reflexivity|exact IH].
Qed.

Lemma keys_update_rows (b : Booking) (rows : list Booking) :
  map booking_id (update_rows b rows) = map booking_id rows.
Proof.
  induction rows as [|r rows IH]; [reflexivity|].
  cbn [update_rows map]. fold (update_rows b rows). rewrite IH.
  destruct (has_booking_id (booking_id b) r) eqn:Hr; [|reflexivity].
  apply has_booking_id_true in Hr. now rewrite Hr.
Qed.

(** Saving an instance that was read from the table is an update, never an
    insert. *)
Lemma rows_after_status_save (s : string) (b : Booking) (pk : string) (db : Database) :
  lookup_booking pk db = Some b ->
  bookings (snd (save (set_status s b) db)) =
    update_rows (set_status s b) (bookings db).
Proof.
  intros Hl. cbn [save snd bookings]. unfold write_row.
  rewrite set_status_id.
  rewrite (lookup_booking_id pk db b Hl).
  unfold lookup_booking in Hl. now rewrite (find_existsb pk _ b Hl).
Qed.

Section Transitions.

Variable filter_queryset : Backends Booking.
Variable detail : Booking -> json.

Local Abbreviation get_object := (BookingViewSet.get_object filter_queryset).
Local Abbreviation confirm := (BookingViewSet.confirm filter_queryset detail).
Local Abbreviation cancel := (BookingViewSet.cancel filter_queryset detail).
Local Abbreviation dispatch := (handle filter_queryset detail).
Local Abbreviation serve_all := (serve filter_queryset detail).

(** The database a request leaves behind: either the one it found, or the
    one in which the booking it read was saved with a new status. *)
Lemma handle_db (r : request) (db : Database) :
  snd (dispatch r db) = db \/
  exists b s,
    lookup_booking (target r) db = Some b /\
    status b <> s /\
    (s = "canceled" \/ (s = "confirmed" /\ status b = "pending")) /\
    snd (dispatch r db) = snd (save (set_status s b) db).
Proof.
  destruct r as [query pk|query pk]; cbn [handle target].
  - destruct (get_object_cases filter_queryset query pk db)
      as [(b & Hg & Hl)|(e & Hg)].
    + destruct (String.eqb_spec (status b) "pending") as [Hs|Hs].
      * right. exists b, "confirmed".
        rewrite (confirm_accepted filter_queryset detail query pk db b Hg Hs).
        repeat split; [exact Hl|rewrite Hs; discriminate|right; now split].
      * left. now rewrite (confirm_rejected filter_queryset detail query pk db b Hg Hs).
    + left. now rewrite (confirm_unresolved filter_queryset detail query pk db e Hg).
  - destruct (get_object_cases filter_queryset query pk db)
      as [(b & Hg & Hl)|(e & Hg)].
    + destruct (String.eqb_spec (status b) "canceled") as [Hs|Hs].
      * left. now rewrite (cancel_rejected filter_queryset detail query pk db b Hg Hs).
      * right. exists b, "canceled".
        rewrite (cancel_accepted filter_queryset detail query pk db b Hg Hs).
        repeat split; [exact Hl|exact Hs|now left].
    + left. now rewrite (cancel_unresolved filter_queryset detail query pk db e Hg).
Qed.

Lemma get_object_unknown (query : Request) (pk : string) (db : Database) :
  lookup_booking pk db = None ->
  get_object query pk db =
    (Raised match filter_queryset query db with
            | Raised e => e
            | Returned _ => Http404
            end, db).
Proof.
  intros Hl. unfold BookingViewSet.get_object. rewrite Hl.
  destruct (filter_queryset query db); reflexivity.
Qed.

(** X1. A request for a key that is in no row never succeeds, for [confirm]
    as for [cancel]: it raises [Http404], or the exception of the filter
    backends when they refuse the query string, and the database is the one
    it found. *)
Theorem unknown_booking_is_not_found (query : Request) (pk : string) (db : Database) :
  lookup_booking pk db = None ->
  confirm query pk db =
    (Raised match filter_queryset query db with
            | Raised e => e
            | Returned _ => Http404
            end, db) /\
  cancel query pk db =
    (Raised match filter_queryset query db with
            | Raised e => e
            | Returned _ => Http404
            end, db).
Proof.
  intros Hl. split.
  - apply confirm_unresolved. now apply get_object_unknown.
  - apply cancel_unresolved. now apply get_object_unknown.
Qed.

Lemma handle_other (r : request) (pk' : string) (db : Database) :
  pk' <> target r ->
  lookup_booking pk' (snd (dispatch r db)) = lookup_booking pk' db.
Proof.
  intros Hne.
  destruct (handle_db r db) as [Heq|(b & s & Hl & _ & _ & Heq)]; rewrite Heq.
  - reflexivity.
  - unfold lookup_booking. rewrite (rows_after_status_save s b _ db Hl).
    apply find_update_rows_other. rewrite set_status_id.
    rewrite (lookup_booking_id _ db b Hl). congruence.
Qed.

Lemma handle_other_tables (r : request) (db : Database) :
  users (snd (dispatch r db)) = users db /\
  properties_tbl (snd (dispatch r db)) = properties_tbl db.
Proof.
  destruct (handle_db r db) as [Heq|(b & s & _ & _ & _ & Heq)]; rewrite Heq;
    split; reflexivity.
Qed.

(** X2. A request on the booking [pk] leaves every other booking as it was:
    a read of another key gives the same row before and after, and the user
    and property tables are untouched. *)
Theorem other_rows_untouched (r : request) (pk' : string) (db : Database) :
  pk' <> target r ->
  lookup_booking pk' (snd (dispatch r db)) = lookup_booking pk' db /\
  users (snd (dispatch r db)) = users db /\
  properties_tbl (snd (dispatch r db)) = properties_tbl db.
Proof.
  intros Hne. split; [exact (handle_other r pk' db Hne)|].
  exact (handle_other_tables r db).
Qed.

Lemma handle_keys (r : request) (db : Database) :
  map booking_id (bookings (snd (dispatch r db))) =
    map booking_id (bookings db).
Proof.
  destruct (handle_db r db) as [Heq|(b & s & Hl & _ & _ & Heq)]; rewrite Heq.
  - reflexivity.
  - rewrite (rows_after_status_save s b _ db Hl). apply keys_update_rows.
Qed.

(** X3. Whatever sequence of confirm and cancel requests is served, the
    booking table keeps its keys, row for row in the same order: no booking
    is added, removed or moved; so unique primary keys stay unique. *)
Theorem serve_keeps_the_rows (rs : list request) (db : Database) :
  map booking_id (bookings (serve_all rs db)) = map booking_id (bookings db) /\
  primary_keys_unique (serve_all rs db) = primary_keys_unique db.
Proof.
  assert (Hk : map booking_id (bookings (serve_all rs db)) =
               map booking_id (bookings db)).
  { revert db. induction rs as [|r rs IH]; intros db; [reflexivity|].
    cbn [serve]. rewrite IH. apply handle_keys. }
  split; [exact Hk|]. unfold primary_keys_unique. now rewrite Hk.
Qed.

(** *** Statuses over sequences of requests *)

Lemma handle_status (r : request) (pk : string) (db : Database) (s : string) :
  status_in_db pk db = Some s ->
  exists s',
    status_in_db pk (snd (dispatch r db)) = Some s' /\
    (s' = s \/ (s = "pending" /\ s' = "confirmed") \/ s' = "canceled").
Proof.
  intros Hs.
  destruct (String.eqb_spec pk (target r)) as [Hpk|Hpk].
  - destruct (handle_db r db) as [Heq|(b & s0 & Hl & _ & Hs0 & Heq)]; rewrite Heq.
    + exists s. split; [exact Hs|now left].
    + subst pk. exists s0. unfold status_in_db in *.
      rewrite (lookup_after_status_save s0 b _ db Hl).
      rewrite Hl in Hs. cbn in Hs. injection Hs as Hs.
      split; [reflexivity|].
      destruct Hs0 as [Hc|[Hc Hp]]; [now right; right|].
      right; left. split; congruence.
  - exists s. unfold status_in_db in *.
    rewrite (handle_other r pk db Hpk). split; [exact Hs|now left].
Qed.

(** X4. From the status [s] of a booking, whatever sequence of confirm and
    cancel requests is served, on this booking or on others, the booking is
    still there and its status is [s], or "canceled", or "confirmed" if [s]
    was "pending": no request makes a booking pending, and only a pending
    one becomes confirmed. *)
Theorem reachable_statuses (rs : list request) (pk : string) (db : Database) (s : string) :
  status_in_db pk db = Some s ->
  exists s',
    status_in_db pk (serve_all rs db) = Some s' /\
    (s' = s \/ (s = "pending" /\ s' = "confirmed") \/ s' = "canceled").
Proof.
  revert db s. induction rs as [|r rs IH]; intros db s Hs.
  - exists s. split; [exact Hs|now left].
  - cbn [serve].
    destruct (handle_status r pk db s Hs) as (s1 & Hs1 & Hstep).
    destruct (IH _ s1 Hs1) as (s' & Hs' & Hrest).
    exists s'. split; [exact Hs'|].
    destruct Hstep as [ -> | [ [Hp -> ] | -> ] ].
    + exact Hrest.
    + destruct Hrest as [ -> | [ [Hc _] | -> ] ];
        [right; left; now split|discriminate Hc|now right; right].
    + destruct Hrest as [ -> | [ [Hc _] | -> ] ];
        [now right; right|discriminate Hc|now right; right].
Qed.

(** X5. "canceled" is absorbing: once a booking is canceled, it is canceled
    after every sequence of confirm and cancel requests. *)
Theorem canceled_stays_canceled (rs : list request) (pk : string) (db : Database) :
  status_in_db pk db = Some "canceled" ->
  status_in_db pk (serve_all rs db) = Some "canceled".
Proof.
  revert db. induction rs as [|r rs IH]; intros db Hs; [exact Hs|].
  cbn [serve]. apply IH.
  destruct (handle_status r pk db "canceled" Hs) as (s1 & Hs1 & Hstep).
  rewrite Hs1. destruct Hstep as [ -> | [ [Hp _] | -> ] ];
    [reflexivity|discriminate Hp|reflexivity].
Qed.

(** *** Writes over sequences of requests *)

Lemma saves_of_snoc (pk : string) (log : list Booking) (b : Booking) :
  saves_of pk (log ++ [b]) =
    saves_of pk log + (if has_booking_id pk b then 1 else 0).
Proof.
  unfold saves_of. rewrite filter_app, length_app. cbn [filter].
  destruct (has_booking_id pk b); reflexivity.
Qed.

Lemma writes_left_drop (s s0 : string) :
  s <> s0 ->
  s0 = "canceled" \/ (s0 = "confirmed" /\ s = "pending") ->
  S (writes_left s0) <= writes_left s.
Proof.
  intros Hne [ -> | [ -> -> ] ]; [|cbn; lia].
  unfold writes_left at 1. cbn [String.eqb Ascii.eqb Bool.eqb].
  unfold writes_left. apply String.eqb_neq in Hne. rewrite Hne.
  destruct (s =? "pending"); lia.
Qed.

Lemma handle_budget (r : request) (pk : string) (db : Database) :
  saves_of pk (save_log (snd (dispatch r db))) +
    writes_left_in_db pk (snd (dispatch r db)) <=
  saves_of pk (save_log db) + writes_left_in_db pk db.
Proof.
  destruct (handle_db r db) as [Heq|(b & s0 & Hl & Hne & Hs0 & Heq)].
  - rewrite Heq. lia.
  - assert (Hlog : saves_of pk (save_log (snd (dispatch r db))) =
                   saves_of pk (save_log db) +
                   (if target r =? pk then 1 else 0)).
    { rewrite Heq, save_log_after_save, saves_of_snoc.
      unfold has_booking_id. rewrite set_status_id.
      now rewrite (lookup_booking_id _ db b Hl). }
    rewrite Hlog.
    destruct (String.eqb_spec (target r) pk) as [Hpk|Hpk].
    + subst pk. rewrite Heq. unfold writes_left_in_db, status_in_db.
      rewrite (lookup_after_status_save s0 b _ db Hl), Hl. cbn [option_map].
      rewrite set_status_status.
      pose proof (writes_left_drop (status b) s0 Hne Hs0). lia.
    + assert (Hsame : writes_left_in_db pk (snd (dispatch r db)) =
                      writes_left_in_db pk db).
      { unfold writes_left_in_db, status_in_db.
        rewrite (handle_other r pk db); [reflexivity|congruence]. }
      rewrite Hsame. lia.
Qed.

(** X6. Over any sequence of confirm and cancel requests, a booking is
    handed to [save()] at most as often as its status allows: twice if it
    was pending, never if it was canceled or is not in the table, once
    otherwise; so at most twice in all. *)
Theorem writes_per_booking_bounded (rs : list request) (pk : string) (db : Database) :
  saves_of pk (save_log (serve_all rs db)) <=
    saves_of pk (save_log db) + writes_left_in_db pk db /\
  saves_of pk (save_log (serve_all rs db)) <= saves_of pk (save_log db) + 2.
Proof.
  assert (Hinv : saves_of pk (save_log (serve_all rs db)) +
                 writes_left_in_db pk (serve_all rs db) <=
                 saves_of pk (save_log db) + writes_left_in_db pk db).
  { revert db. induction rs as [|r rs IH]; intros db; [cbn [serve]; lia|].
    cbn [serve]. specialize (IH (snd (dispatch r db))).
    pose proof (handle_budget r pk db). lia. }
  assert (Hmax : writes_left_in_db pk db <= 2).
  { unfold writes_left_in_db. destruct (status_in_db pk db) as [s|]; [|lia].
    unfold writes_left. destruct (s =? "pending"); [lia|].
    destruct (s =? "canceled"); lia. }
  split; lia.
Qed.

(** *** Two requests in a row *)

(** X7. On a pending booking, [confirm] followed by [cancel], each on a
    request for which [get_object] returns the booking, succeeds twice: 200
    with the confirmed booking, then 200 with the canceled one; the table
    then holds the canceled booking and [save()] was called exactly twice,
    in that order. *)
Theorem confirm_then_cancel
  (q1 q2 : Request) (pk : string) (db : Database) (b : Booking) :
  get_object q1 pk db = (Returned b, db) ->
  status b = "pending" ->
  get_object q2 pk (snd (confirm q1 pk db)) =
    (Returned (set_status "confirmed" b), snd (confirm q1 pk db)) ->
  let '(r1, db1) := confirm q1 pk db in
  let '(r2, db2) := cancel q2 pk db1 in
  r1 = Returned (mkResponse (detail (set_status "confirmed" b)) 200) /\
  r2 = Returned (mkResponse (detail (set_status "canceled" b)) 200) /\
  lookup_booking pk db2 = Some (set_status "canceled" b) /\
  save_log db2 =
    (save_log db ++ [set_status "confirmed" b; set_status "canceled" b])%list.
Proof.
  intros Hg Hs Hg2.
  pose proof (get_object_lookup filter_queryset q1 pk db db b Hg) as Hl.
  rewrite (confirm_accepted filter_queryset detail q1 pk db b Hg Hs) in *.
  cbn [snd] in Hg2.
  pose proof (lookup_after_status_save "confirmed" b pk db Hl) as Hl1.
  rewrite (cancel_accepted filter_queryset detail q2 pk _ _ Hg2)
    by (cbn; discriminate).
  split; [reflexivity|]. split; [reflexivity|]. split.
  - exact (lookup_after_status_save "canceled" _ pk _ Hl1).
  - cbn [save snd save_log]. now rewrite <- app_assoc.
Qed.

(** What [confirm] does with a booking that is in the table and not
    pending: it changes nothing, and answers 400 or raises with
    [get_object]. *)
Lemma confirm_not_pending (query : Request) (pk : string) (db : Database) (b : Booking) :
  lookup_booking pk db = Some b ->
  status b <> "pending" ->
  confirm query pk db =
    (match fst (get_object query pk db) with
     | Returned _ =>
         Returned (mkResponse
           (JDict [("error", JString "Only pending bookings can be confirmed.")])
           400)
     | Raised e => Raised e
     end, db).
Proof.
  intros Hl Hs.
  destruct (get_object_cases filter_queryset query pk db)
    as [(b0 & Hg & Hl0)|(e & Hg)]; rewrite Hg; cbn [fst].
  - assert (b0 = b) by congruence. subst b0.
    exact (confirm_rejected filter_queryset detail query pk db b Hg Hs).
  - exact (confirm_unresolved filter_queryset detail query pk db e Hg).
Qed.

Lemma cancel_canceled (query : Request) (pk : string) (db : Database) (b : Booking) :
  lookup_booking pk db = Some b ->
  status b = "canceled" ->
  cancel query pk db =
    (match fst (get_object query pk db) with
     | Returned _ =>
         Returned (mkResponse
           (JDict [("error", JString "Booking is already canceled.")])
           400)
     | Raised e => Raised e
     end, db).
Proof.
  intros Hl Hs.
  destruct (get_object_cases filter_queryset query pk db)
    as [(b0 & Hg & Hl0)|(e & Hg)]; rewrite Hg; cbn [fst].
  - assert (b0 = b) by congruence. subst b0.
    exact (cancel_rejected filter_queryset detail query pk db b Hg Hs).
  - exact (cancel_unresolved filter_queryset detail query pk db e Hg).
Qed.

(** X8. A canceled booking is not confirmed again: when [cancel] has
    succeeded on a booking, a [confirm] that follows, on any request,
    changes nothing: it answers 400 with the message when [get_object]
    returns the booking and raises with [get_object] otherwise; the booking
    stays canceled. *)
Theorem cancel_then_confirm
  (q1 q2 : Request) (pk : string) (db : Database) (b : Booking) :
  get_object q1 pk db = (Returned b, db) ->
  status b <> "canceled" ->
  let '(r1, db1) := cancel q1 pk db in
  let '(r2, db2) := confirm q2 pk db1 in
  r1 = Returned (mkResponse (detail (set_status "canceled" b)) 200) /\
  r2 = match fst (get_object q2 pk db1) with
       | Returned _ =>
           Returned (mkResponse
             (JDict [("error", JString "Only pending bookings can be confirmed.")])
             400)
       | Raised e => Raised e
       end /\
  db2 = db1 /\
  lookup_booking pk db2 = Some (set_status "canceled" b).
Proof.
  intros Hg Hs.
  pose proof (get_object_lookup filter_queryset q1 pk db db b Hg) as Hl.
  rewrite (cancel_accepted filter_queryset detail q1 pk db b Hg Hs).
  pose proof (lookup_after_status_save "canceled" b pk db Hl) as Hl1.
  rewrite (confirm_not_pending q2 pk _ _ Hl1) by (cbn; discriminate).
  repeat split. exact Hl1.
Qed.

(** X9. No double confirmation: when [confirm] has succeeded on a pending
    booking, a second [confirm], on any request, changes nothing: it
    answers 400 with the message when [get_object] returns the booking and
    raises with [get_object] otherwise; so [save()] was called once. *)
Theorem second_confirm_rejected
  (q1 q2 : Request) (pk : string) (db : Database) (b : Booking) :
  get_object q1 pk db = (Returned b, db) ->
  status b = "pending" ->
  let '(r1, db1) := confirm q1 pk db in
  let '(r2, db2) := confirm q2 pk db1 in
  r1 = Returned (mkResponse (detail (set_status "confirmed" b)) 200) /\
  r2 = match fst (get_object q2 pk db1) with
       | Returned _ =>
           Returned (mkResponse
             (JDict [("error", JString "Only pending bookings can be confirmed.")])
             400)
       | Raised e => Raised e
       end /\
  db2 = db1 /\
  save_log db2 = (save_log db ++ [set_status "confirmed" b])%list.
Proof.
  intros Hg Hs.
  pose proof (get_object_lookup filter_queryset q1 pk db db b Hg) as Hl.
  rewrite (confirm_accepted filter_queryset detail q1 pk db b Hg Hs).
  pose proof (lookup_after_status_save "confirmed" b pk db Hl) as Hl1.
  rewrite (confirm_not_pending q2 pk _ _ Hl1) by (cbn; discriminate).
  repeat split.
Qed.

(** X10. No double cancellation: when [cancel] has succeeded on a booking,
    a second [cancel], on any request, changes nothing: it answers 400 with
    the message when [get_object] returns the booking and raises with
    [get_object] otherwise; so [save()] was called once. *)
Theorem second_cancel_rejected
  (q1 q2 : Request) (pk : string) (db : Database) (b : Booking) :
  get_object q1 pk db = (Returned b, db) ->
  status b <> "canceled" ->
  let '(r1, db1) := cancel q1 pk db in
  let '(r2, db2) := cancel q2 pk db1 in
  r1 = Returned (mkResponse (detail (set_status "canceled" b)) 200) /\
  r2 = match fst (get_object q2 pk db1) with
       | Returned _ =>
           Returned (mkResponse
             (JDict [("error", JString "Booking is already canceled.")])
             400)
       | Raised e => Raised e
       end /\
  db2 = db1 /\
  save_log db2 = (save_log db ++ [set_status "canceled" b])%list.
Proof.
  intros Hg Hs.
  pose proof (get_object_lookup filter_queryset q1 pk db db b Hg) as Hl.
  rewrite (cancel_accepted filter_queryset detail q1 pk db b Hg Hs).
  pose proof (lookup_after_status_save "canceled" b pk db Hl) as Hl1.
  rewrite (cancel_canceled q2 pk _ _ Hl1) by reflexivity.
  repeat split.
Qed.

End Transitions.

(** ** The status column *)

Lemma distinct_find_unique (rows : list Booking) (pk : string) (b r : Booking) :
  distinct (map booking_id rows) = true ->
  find (has_booking_id pk) rows = Some b ->
  In r rows ->
  booking_id r = pk ->
  r = b.
Proof.
  induction rows as [|r0 rows IH]; intros Hd Hf Hin Hid; [contradiction|].
  cbn [map distinct] in Hd. apply andb_true_iff in Hd. destruct Hd as [Hfresh Hd].
  apply negb_true_iff in Hfresh. cbn [find] in Hf.
  destruct (has_booking_id pk r0) eqn:Hr0.
  - injection Hf as <-. destruct Hin as [Heq|Hin]; [now symmetry|].
    apply has_booking_id_true in Hr0.
    assert (Hex : existsb (String.eqb (booking_id r0)) (map booking_id rows) = true).
    { apply existsb_exists. exists (booking_id r). split.
      - now apply in_map.
      - apply String.eqb_eq. congruence. }
    congruence.
  - destruct Hin as [Heq|Hin].
    + subst r0. apply has_booking_id_false in Hr0. contradiction.
    + now apply IH.
Qed.

Lemma update_rows_without_status (s : string) (b : Booking) (rows : list Booking) :
  distinct (map booking_id rows) = true ->
  find (has_booking_id (booking_id b)) rows = Some b ->
  map without_status (update_rows (set_status s b) rows) = map without_status rows.
Proof.
  intros Hd Hf. unfold update_rows. rewrite map_map.
  apply map_ext_in. intros r Hin. rewrite set_status_id.
  destruct (has_booking_id (booking_id b) r) eqn:Hr; [|reflexivity].
  apply has_booking_id_true in Hr.
  now rewrite (distinct_find_unique rows _ b r Hd Hf Hin Hr).
Qed.

(** A filter that does not read the status selects the same rows, statuses
    apart, from two tables that agree statuses apart. *)
Lemma filter_without_status (f : Booking -> bool) (rows rows' : list Booking) :
  (forall r, f (without_status r) = f r) ->
  map without_status rows' = map without_status rows ->
  map without_status (filter f rows') = map without_status (filter f rows).
Proof.
  intros Hf Heq.
  assert (Hswap : forall l, map without_status (filter f l) =
                            filter f (map without_status l)).
  { intros l. rewrite filter_map_swap. f_equal.
    apply filter_ext. intros r. now rewrite Hf. }
  now rewrite !Hswap, Heq.
Qed.

Section StatusColumn.

Variable filter_queryset : Backends Booking.
Variable detail : Booking -> json.

Local Abbreviation dispatch := (handle filter_queryset detail).
Local Abbreviation serve_all := (serve filter_queryset detail).

Lemma handle_without_status (r : request) (db : Database) :
  primary_keys_unique db = true ->
  map without_status (bookings (snd (dispatch r db))) =
    map without_status (bookings db).
Proof.
  intros Hu.
  destruct (handle_db filter_queryset detail r db) as [Heq|(b & s & Hl & _ & _ & Heq)]; rewrite Heq.
  - reflexivity.
  - rewrite (rows_after_status_save s b _ db Hl).
    apply update_rows_without_status; [exact Hu|].
    rewrite (lookup_booking_id _ db b Hl). exact Hl.
Qed.

Lemma serve_other_tables (rs : list request) (db : Database) :
  users (serve_all rs db) = users db /\
  properties_tbl (serve_all rs db) = properties_tbl db.
Proof.
  revert db. induction rs as [|r rs IH]; intros db; [split; reflexivity|].
  cbn [serve]. destruct (IH (snd (dispatch r db))) as [Hu Hp].
  destruct (handle_other_tables filter_queryset detail r db) as [Hu' Hp'].
  split; congruence.
Qed.

Lemma serve_without_status (rs : list request) (db : Database) :
  primary_keys_unique db = true ->
  map without_status (bookings (serve_all rs db)) =
    map without_status (bookings db).
Proof.
  revert db. induction rs as [|r rs IH]; intros db Hu; [reflexivity|].
  cbn [serve]. rewrite IH.
  - now apply handle_without_status.
  - unfold primary_keys_unique. now rewrite handle_keys.
Qed.

(** X11. With unique primary keys, any sequence of confirm and cancel
    requests changes the status column of the booking table and nothing
    else: with the statuses blanked, the table after the requests is the
    table before them. *)
Theorem serve_changes_status_only (rs : list request) (db : Database) :
  primary_keys_unique db = true ->
  map without_status (bookings (serve_all rs db)) =
    map without_status (bookings db).
Proof.
  revert db. induction rs as [|r rs IH]; intros db Hu; [reflexivity|].
  cbn [serve].
  assert (Hu1 : primary_keys_unique (snd (dispatch r db)) = true).
  { unfold primary_keys_unique. now rewrite handle_keys. }
  rewrite (IH _ Hu1). now apply handle_without_status.
Qed.

(** X12. With unique primary keys, any sequence of confirm and cancel
    requests leaves the relations the lookup views read as they were: a user
    has the same bookings and a property has the same bookings, statuses
    apart, and a user hosts the same properties. *)
Theorem relations_survive_requests
  (rs : list request) (db : Database) (u : User) (p : Property) :
  primary_keys_unique db = true ->
  map without_status (UserViewSet.bookings_all u (serve_all rs db)) =
    map without_status (UserViewSet.bookings_all u db) /\
  map without_status (PropertyViewSet.bookings_all p (serve_all rs db)) =
    map without_status (PropertyViewSet.bookings_all p db) /\
  UserViewSet.properties_all u (serve_all rs db) =
    UserViewSet.properties_all u db.
Proof.
  intros Hu. pose proof (serve_without_status rs db Hu) as Hrows.
  split; [|split].
  - apply filter_without_status; [reflexivity|exact Hrows].
  - apply filter_without_status; [reflexivity|exact Hrows].
  - unfold UserViewSet.properties_all.
    now rewrite (proj2 (serve_other_tables rs db)).
Qed.

End StatusColumn.

(** ** The relationship lookups *)

Section Lookups.

Variable filter_bookings : Backends Booking.
Variable filter_users : Backends User.
Variable filter_properties : Backends Property.
Variable detail : Booking -> json.
Variable brief : Booking -> json.
Variable listing : Property -> json.
Variable review : Review -> json.
Variable review_rows : list Review.

Local Abbreviation get_user := (UserViewSet.get_object filter_users).
Local Abbreviation get_property := (PropertyViewSet.get_object filter_properties).
Local Abbreviation user_properties := (UserViewSet.properties filter_users listing).
Local Abbreviation user_bookings := (UserViewSet.bookings filter_users brief).
Local Abbreviation property_bookings :=
  (PropertyViewSet.bookings filter_properties brief).
Local Abbreviation property_reviews :=
  (PropertyViewSet.reviews filter_properties review review_rows).
Local Abbreviation dispatch := (handle filter_bookings detail).

Lemma get_user_cases (query : Request) (pk : string) (db : Database) :
  (exists u, get_user query pk db = (Returned u, db) /\
             lookup_user pk db = Some u) \/
  (exists e, get_user query pk db = (Raised e, db)).
Proof.
  unfold UserViewSet.get_object.
  destruct (filter_users query db) as [keeps|e]; [|right; now exists e].
  destruct (lookup_user pk db) as [u|]; [|right; now exists Http404].
  destruct (keeps u); [left; now exists u|right; now exists Http404].
Qed.

Lemma get_property_cases (query : Request) (pk : string) (db : Database) :
  (exists p, get_property query pk db = (Returned p, db) /\
             lookup_property pk db = Some p) \/
  (exists e, get_property query pk db = (Raised e, db)).
Proof.
  unfold PropertyViewSet.get_object.
  destruct (filter_properties query db) as [keeps|e]; [|right; now exists e].
  destruct (lookup_property pk db) as [p|]; [|right; now exists Http404].
  destruct (keeps p); [left; now exists p|right; now exists Http404].
Qed.

Lemma user_bookings_run (query : Request) (pk : string) (db : Database) :
  user_bookings query pk db =
    (match fst (get_user query pk db) with
     | Returned u =>
         Returned (mkResponse (JList (map brief (UserViewSet.bookings_all u db))) 200)
     | Raised e => Raised e
     end, db).
Proof.
  unfold UserViewSet.bookings, bind.
  destruct (get_user_cases query pk db) as [(u & Hg & _)|(e & Hg)];
    rewrite Hg; reflexivity.
Qed.

Lemma property_bookings_run (query : Request) (pk : string) (db : Database) :
  property_bookings query pk db =
    (match fst (get_property query pk db) with
     | Returned p =>
         Returned
           (mkResponse (JList (map brief (PropertyViewSet.bookings_all p db))) 200)
     | Raised e => Raised e
     end, db).
Proof.
  unfold PropertyViewSet.bookings, bind.
  destruct (get_property_cases query pk db) as [(p & Hg & _)|(e & Hg)];
    rewrite Hg; reflexivity.
Qed.

Lemma property_reviews_run (query : Request) (pk : string) (db : Database) :
  property_reviews query pk db =
    (match fst (get_property query pk db) with
     | Returned p =>
         Returned
           (mkResponse
              (JList (map review (PropertyViewSet.reviews_all review_rows p))) 200)
     | Raised e => Raised e
     end, db).
Proof.
  unfold PropertyViewSet.reviews, bind.
  destruct (get_property_cases query pk db) as [(p & Hg & _)|(e & Hg)];
    rewrite Hg; reflexivity.
Qed.

Lemma user_properties_db (query : Request) (pk : string) (db : Database) :
  snd (user_properties query pk db) = db.
Proof.
  unfold UserViewSet.properties, bind.
  destruct (get_user_cases query pk db) as [(u & Hg & _)|(e & Hg)];
    rewrite Hg; [|reflexivity].
  destruct (negb (existsb (String.eqb (role u)) ["host"; "admin"])); reflexivity.
Qed.

(** X13. The four relationship lookups only read: whatever the request, the
    key and the database, found or not, allowed or not, the database after
    the call is the database before it. *)
Theorem lookups_are_read_only (query : Request) (pk : string) (db : Database) :
  snd (user_properties query pk db) = db /\
  snd (user_bookings query pk db) = db /\
  snd (property_bookings query pk db) = db /\
  snd (property_reviews query pk db) = db.
Proof.
  split; [exact (user_properties_db query pk db)|].
  rewrite user_bookings_run, property_bookings_run, property_reviews_run.
  repeat split.
Qed.

(** X15. A transition shows in the lookups: when a confirm or cancel
    request on a booking ends in a 2xx response, the lookups of the bookings
    of the booking's user and of its property that follow, on requests for
    which [get_object] returns that user and that property, answer 200 and
    their lists contain the booking with its new status. *)
Theorem transition_is_listed
  (r : request) (qu qp : Request) (db : Database)
  (b : Booking) (u : User) (p : Property) :
  lookup_booking (target r) db = Some b ->
  succeeded (fst (dispatch r db)) = true ->
  get_user qu (user b) (snd (dispatch r db)) = (Returned u, snd (dispatch r db)) ->
  get_property qp (property_obj b) (snd (dispatch r db)) =
    (Returned p, snd (dispatch r db)) ->
  let db1 := snd (dispatch r db) in
  let b1 := set_status (asked r) b in
  fst (user_bookings qu (user b) db1) =
    Returned (mkResponse (JList (map brief (UserViewSet.bookings_all u db1))) 200) /\
  In b1 (UserViewSet.bookings_all u db1) /\
  fst (property_bookings qp (property_obj b) db1) =
    Returned
      (mkResponse (JList (map brief (PropertyViewSet.bookings_all p db1))) 200) /\
  In b1 (PropertyViewSet.bookings_all p db1).
Proof.
  intros Hl Hok Hu Hp db1 b1.
  assert (Hdb1 : db1 = snd (save b1 db)).
  { subst db1 b1. destruct r as [query pk|query pk]; cbn [handle target asked] in *.
    - destruct (get_object_cases filter_bookings query pk db)
        as [(b0 & Hg & Hl0)|(e & Hg)].
      + assert (b0 = b) by congruence. subst b0.
        destruct (String.eqb_spec (status b) "pending") as [Hs|Hs].
        * now rewrite (confirm_accepted filter_bookings detail query pk db b Hg Hs).
        * rewrite (confirm_rejected filter_bookings detail query pk db b Hg Hs) in Hok.
          discriminate Hok.
      + rewrite (confirm_unresolved filter_bookings detail query pk db e Hg) in Hok.
        discriminate Hok.
    - destruct (get_object_cases filter_bookings query pk db)
        as [(b0 & Hg & Hl0)|(e & Hg)].
      + assert (b0 = b) by congruence. subst b0.
        destruct (String.eqb_spec (status b) "canceled") as [Hs|Hs].
        * rewrite (cancel_rejected filter_bookings detail query pk db b Hg Hs) in Hok.
          discriminate Hok.
        * now rewrite (cancel_accepted filter_bookings detail query pk db b Hg Hs).
      + rewrite (cancel_unresolved filter_bookings detail query pk db e Hg) in Hok.
        discriminate Hok. }
  assert (Hin : In b1 (bookings db1)).
  { pose proof (lookup_after_status_save (asked r) b _ db Hl) as Hl1.
    fold b1 in Hl1. rewrite <- Hdb1 in Hl1.
    unfold lookup_booking in Hl1. now apply find_some in Hl1. }
  fold db1 in Hu, Hp.
  assert (Huid : user_id u = user b).
  { destruct (get_user_cases qu (user b) db1) as [(u0 & Hg & Hlu)|(e & Hg)];
      rewrite Hg in Hu; [|discriminate Hu].
    injection Hu as ->. unfold lookup_user in Hlu. apply find_some in Hlu.
    destruct Hlu as [_ Hlu]. now apply String.eqb_eq in Hlu. }
  assert (Hpid : property_id p = property_obj b).
  { destruct (get_property_cases qp (property_obj b) db1)
      as [(p0 & Hg & Hlp)|(e & Hg)];
      rewrite Hg in Hp; [|discriminate Hp].
    injection Hp as ->. unfold lookup_property in Hlp. apply find_some in Hlp.
    destruct Hlp as [_ Hlp]. now apply String.eqb_eq in Hlp. }
  rewrite user_bookings_run, property_bookings_run, Hu, Hp.
  split; [reflexivity|]. split; [|split; [reflexivity|]].
  - apply filter_In. split; [exact Hin|].
    apply String.eqb_eq. now rewrite Huid.
  - apply filter_In. split; [exact Hin|].
    apply String.eqb_eq. now rewrite Hpid.
Qed.

End Lookups.

(** ** The further theorems on the sample database *)

Section MoreSamples.

Import Fixture.

Local Abbreviation get_object := (BookingViewSet.get_object BookingViewSet.django_filter).
Local Abbreviation confirm :=
  (BookingViewSet.confirm BookingViewSet.django_filter booking_json).
Local Abbreviation cancel :=
  (BookingViewSet.cancel BookingViewSet.django_filter booking_json).
Local Abbreviation dispatch := (handle BookingViewSet.django_filter booking_json).
Local Abbreviation serve0 := (serve BookingViewSet.django_filter booking_json).

Lemma unknown_booking_is_not_found_witness :
  lookup_booking "b-9" db0 = None /\
  confirm (by_status "pending") "b-9" db0 = (Raised Http404, db0) /\
  cancel (by_status "pending") "b-9" db0 = (Raised Http404, db0).
Proof.
  split; [reflexivity|].
  apply (unknown_booking_is_not_found BookingViewSet.django_filter booking_json
           (by_status "pending") "b-9" db0); reflexivity.
Defined.

Lemma other_rows_untouched_witness :
  "b-2" <> target (Cancel no_query "b-1") /\
  lookup_booking "b-2" (snd (dispatch (Cancel no_query "b-1") db0)) =
    lookup_booking "b-2" db0 /\
  users (snd (dispatch (Cancel no_query "b-1") db0)) = users db0 /\
  properties_tbl (snd (dispatch (Cancel no_query "b-1") db0)) =
    properties_tbl db0.
Proof.
  split; [apply String.eqb_neq; reflexivity|].
  apply (other_rows_untouched BookingViewSet.django_filter booking_json
           (Cancel no_query "b-1") "b-2" db0).
  apply String.eqb_neq; reflexivity.
Defined.

Lemma reachable_statuses_witness :
  status_in_db "b-1" db0 = Some "pending" /\
  exists s',
    status_in_db "b-1"
      (serve0 [Confirm (by_status "pending") "b-1"; Cancel no_query "b-2";
               Cancel (by_status "confirmed") "b-1"] db0) = Some s' /\
    (s' = "pending" \/ ("pending" = "pending" /\ s' = "confirmed") \/
     s' = "canceled").
Proof.
  split; [reflexivity|].
  apply (reachable_statuses BookingViewSet.django_filter booking_json
           [Confirm (by_status "pending") "b-1"; Cancel no_query "b-2";
            Cancel (by_status "confirmed") "b-1"] "b-1" db0 "pending").
  reflexivity.
Defined.

Lemma canceled_stays_canceled_witness :
  status_in_db "b-3" db0 = Some "canceled" /\
  status_in_db "b-3"
    (serve0 [Confirm no_query "b-3"; Cancel no_query "b-3";
             Confirm no_query "b-1"] db0) = Some "canceled".
Proof.
  split; [reflexivity|].
  apply (canceled_stays_canceled BookingViewSet.django_filter booking_json
           [Confirm no_query "b-3"; Cancel no_query "b-3";
            Confirm no_query "b-1"] "b-3" db0).
  reflexivity.
Defined.

Lemma confirm_then_cancel_witness :
  get_object (by_status "pending") "b-1" db0 = (Returned bk_pending, db0) /\
  status bk_pending = "pending" /\
  get_object (by_status "confirmed") "b-1"
      (snd (confirm (by_status "pending") "b-1" db0)) =
    (Returned (set_status "confirmed" bk_pending),
     snd (confirm (by_status "pending") "b-1" db0)) /\
  let '(r1, db1) := confirm (by_status "pending") "b-1" db0 in
  let '(r2, db2) := cancel (by_status "confirmed") "b-1" db1 in
  r1 = Returned (mkResponse (booking_json (set_status "confirmed" bk_pending)) 200) /\
  r2 = Returned (mkResponse (booking_json (set_status "canceled" bk_pending)) 200) /\
  lookup_booking "b-1" db2 = Some (set_status "canceled" bk_pending) /\
  save_log db2 =
    (save_log db0 ++
     [set_status "confirmed" bk_pending; set_status "canceled" bk_pending])%list.
Proof.
  split; [reflexivity|]. split; [reflexivity|]. split; [reflexivity|].
  apply (confirm_then_cancel BookingViewSet.django_filter booking_json
           (by_status "pending") (by_status "confirmed") "b-1" db0 bk_pending);
    reflexivity.
Defined.

Lemma cancel_then_confirm_witness :
  get_object no_query "b-2" db0 = (Returned bk_confirmed, db0) /\
  status bk_confirmed <> "canceled" /\
  let '(r1, db1) := cancel no_query "b-2" db0 in
  let '(r2, db2) := confirm no_query "b-2" db1 in
  r1 = Returned (mkResponse (booking_json (set_status "canceled" bk_confirmed)) 200) /\
  r2 = match fst (get_object no_query "b-2" db1) with
       | Returned _ =>
           Returned (mkResponse
             (JDict [("error", JString "Only pending bookings can be confirmed.")])
             400)
       | Raised e => Raised e
       end /\
  db2 = db1 /\
  lookup_booking "b-2" db2 = Some (set_status "canceled" bk_confirmed).
Proof.
  split; [reflexivity|]. split; [apply String.eqb_neq; reflexivity|].
  apply (cancel_then_confirm BookingViewSet.django_filter booking_json
           no_query no_query "b-2" db0 bk_confirmed);
    [reflexivity|apply String.eqb_neq; reflexivity].
Defined.

Lemma second_confirm_rejected_witness :
  get_object (by_status "pending") "b-1" db0 = (Returned bk_pending, db0) /\
  status bk_pending = "pending" /\
  let '(r1, db1) := confirm (by_status "pending") "b-1" db0 in
  let '(r2, db2) := confirm (by_status "pending") "b-1" db1 in
  r1 = Returned (mkResponse (booking_json (set_status "confirmed" bk_pending)) 200) /\
  r2 = match fst (get_object (by_status "pending") "b-1" db1) with
       | Returned _ =>
           Returned (mkResponse
             (JDict [("error", JString "Only pending bookings can be confirmed.")])
             400)
       | Raised e => Raised e
       end /\
  db2 = db1 /\
  save_log db2 = (save_log db0 ++ [set_status "confirmed" bk_pending])%list.
Proof.
  split; [reflexivity|]. split; [reflexivity|].
  apply (second_confirm_rejected BookingViewSet.django_filter booking_json
           (by_status "pending") (by_status "pending") "b-1" db0 bk_pending);
    reflexivity.
Defined.

Lemma second_cancel_rejected_witness :
  get_object no_query "b-2" db0 = (Returned bk_confirmed, db0) /\
  status bk_confirmed <> "canceled" /\
  let '(r1, db1) := cancel no_query "b-2" db0 in
  let '(r2, db2) := cancel no_query "b-2" db1 in
  r1 = Returned (mkResponse (booking_json (set_status "canceled" bk_confirmed)) 200) /\
  r2 = match fst (get_object no_query "b-2" db1) with
       | Returned _ =>
           Returned (mkResponse
             (JDict [("error", JString "Booking is already canceled.")])
             400)
       | Raised e => Raised e
       end /\
  db2 = db1 /\
  save_log db2 = (save_log db0 ++ [set_status "canceled" bk_confirmed])%list.
Proof.
  split; [reflexivity|]. split; [apply String.eqb_neq; reflexivity|].
  apply (second_cancel_rejected BookingViewSet.django_filter booking_json
           no_query no_query "b-2" db0 bk_confirmed);
    [reflexivity|apply String.eqb_neq; reflexivity].
Defined.

Lemma serve_changes_status_only_witness :
  primary_keys_unique db0 = true /\
  map without_status
      (bookings (serve0 [Confirm no_query "b-1"; Cancel no_query "b-2"] db0)) =
    map without_status (bookings db0).
Proof.
  split; [reflexivity|].
  apply (serve_changes_status_only BookingViewSet.django_filter booking_json
           [Confirm no_query "b-1"; Cancel no_query "b-2"] db0).
  reflexivity.
Defined.

Lemma relations_survive_requests_witness :
  primary_keys_unique db0 = true /\
  map without_status
      (UserViewSet.bookings_all u_guest
         (serve0 [Confirm no_query "b-1"; Cancel no_query "b-2"] db0)) =
    map without_status (UserViewSet.bookings_all u_guest db0) /\
  map without_status
      (PropertyViewSet.bookings_all p_cabin
         (serve0 [Confirm no_query "b-1"; Cancel no_query "b-2"] db0)) =
    map without_status (PropertyViewSet.bookings_all p_cabin db0) /\
  UserViewSet.properties_all u_guest
      (serve0 [Confirm no_query "b-1"; Cancel no_query "b-2"] db0) =
    UserViewSet.properties_all u_guest db0.
Proof.
  split; [reflexivity|].
  apply (relations_survive_requests BookingViewSet.django_filter booking_json
           [Confirm no_query "b-1"; Cancel no_query "b-2"] db0 u_guest p_cabin).
  reflexivity.
Defined.

Lemma transition_is_listed_witness :
  lookup_booking (target (Confirm (by_status "pending") "b-1")) db0 =
    Some bk_pending /\
  succeeded (fst (dispatch (Confirm (by_status "pending") "b-1") db0)) = true /\
  UserViewSet.get_object UserViewSet.django_filter (by_role "guest")
      (user bk_pending) (snd (dispatch (Confirm (by_status "pending") "b-1") db0)) =
    (Returned u_guest, snd (dispatch (Confirm (by_status "pending") "b-1") db0)) /\
  PropertyViewSet.get_object PropertyViewSet.django_filter (by_host "u-1")
      (property_obj bk_pending)
      (snd (dispatch (Confirm (by_status "pending") "b-1") db0)) =
    (Returned p_cabin, snd (dispatch (Confirm (by_status "pending") "b-1") db0)) /\
  let db1 := snd (dispatch (Confirm (by_status "pending") "b-1") db0) in
  let b1 := set_status (asked (Confirm (by_status "pending") "b-1")) bk_pending in
  fst (UserViewSet.bookings UserViewSet.django_filter booking_brief
         (by_role "guest") (user bk_pending) db1) =
    Returned (mkResponse
      (JList (map booking_brief (UserViewSet.bookings_all u_guest db1))) 200) /\
  In b1 (UserViewSet.bookings_all u_guest db1) /\
  fst (PropertyViewSet.bookings PropertyViewSet.django_filter booking_brief
         (by_host "u-1") (property_obj bk_pending) db1) =
    Returned (mkResponse
      (JList (map booking_brief (PropertyViewSet.bookings_all p_cabin db1))) 200) /\
  In b1 (PropertyViewSet.bookings_all p_cabin db1).
Proof.
  split; [reflexivity|]. split; [reflexivity|]. split; [reflexivity|].
  split; [reflexivity|].
  apply (transition_is_listed BookingViewSet.django_filter UserViewSet.django_filter
           PropertyViewSet.django_filter booking_json booking_brief
           (Confirm (by_status "pending") "b-1") (by_role "guest") (by_host "u-1")
           db0 bk_pending u_guest p_cabin); reflexivity.
Defined.

(** The bound of X6 is reached: a pending booking confirmed and then
    canceled was saved twice, and further requests add nothing. *)
Example two_writes_are_reached :
  saves_of "b-1"
    (save_log (serve0 [Confirm no_query "b-1"; Cancel no_query "b-1";
                       Confirm no_query "b-1"; Cancel no_query "b-1"] db0))
  = 2.
Proof. reflexivity. Qed.

(** The same request twice: the query string that let the first [confirm]
    through hides the booking from the second. *)
Example second_confirm_not_found :
  let '(r1, db1) := confirm (by_status "pending") "b-1" db0 in
  succeeded r1 = true /\
  confirm (by_status "pending") "b-1" db1 = (Raised Http404, db1).
Proof. split; reflexivity. Qed.

Example guest_lists_bookings_but_not_properties :
  fst (UserViewSet.bookings UserViewSet.django_filter booking_brief
         no_query "u-3" db0) =
    Returned (mkResponse
      (JList [booking_brief bk_pending; booking_brief bk_confirmed;
              booking_brief bk_canceled; booking_brief bk_archived]) 200) /\
  fst (UserViewSet.properties UserViewSet.django_filter property_brief
         no_query "u-3" db0) =
    Returned (mkResponse
      (JDict [("error", JString "User is not a host or admin.")]) 400).
Proof. split; reflexivity. Qed.

Example reviews_of_a_property :
  fst (PropertyViewSet.reviews PropertyViewSet.django_filter review_json reviews0
         no_query "p-2" db0) =
    Returned (mkResponse (JList [review_json rv_loft]) 200) /\
  fst (PropertyViewSet.reviews PropertyViewSet.django_filter review_json reviews0
         no_query "p-9" db0) = Raised Http404 /\
  fst (PropertyViewSet.reviews PropertyViewSet.django_filter review_json reviews0
         (by_host "u-2") "p-2" db0) = Raised Http404.
Proof. repeat split. Qed.

End MoreSamples.
